(** * react-touch-drag-slider: the drag / keyboard / external-index engine

    A shallow embedding of [src/lib/Slider.tsx].  The component keeps its
    mutable state in React refs; every event handler reads and writes those
    refs and may call the host's callbacks.  Here the refs are the fields of
    one record, a handler is a function from that record to a completion and
    the record after the handler ran, and the host's callbacks are recorded
    in a log of calls.

    Numbers.  Pixel offsets, widths and indices are modelled as integers
    ([Z]); [currentIndex] is [number | null] in the source and [option Z]
    here, with JavaScript's coercion of [null] to [0] written out where the
    source relies on it (arithmetic and the relational operators).  The
    source computes in IEEE doubles, where sums do not re-associate; the
    statements below keep the source's own order of operations, and the one
    expression whose order matters to a claim, the translate of a pointer
    move, is also evaluated in doubles.

    Rendering.  [dimensions] is React state: a handler sees the value its
    render captured, and [setDimensions] only queues a value for the next
    render.  The state record keeps both, and a render is an event of its
    own that takes the queued value up and re-runs the effects whose
    dependency arrays name [setPositionByIndex]. *)

From Stdlib Require Import ZArith List String Bool Lia QArith.
From Stdlib Require Import Floats.PrimFloat.
#[local] Set Warnings "-inexact-float".
Import ListNotations.
Local Close Scope Q_scope.
Local Open Scope string_scope.
Local Open Scope list_scope.
Local Open Scope Z_scope.

(** ** JavaScript values the component manipulates *)

(** [ToNumber] on a [number | null]: [null] coerces to [0]. *)
Definition toNumber (v : option Z) : Z :=
  match v with
  | Some n => n
  | None => 0
  end.

(** [a !== b] on [number | null]. *)
Definition strict_neq (a b : option Z) : bool :=
  match a, b with
  | Some x, Some y => negb (x =? y)
  | None, None => false
  | _, _ => true
  end.

(** [prevTranslate.current + currentPosition - startPos.current], lines
    134-135, over a number type with its addition and subtraction:
    JavaScript evaluates the sum first. *)
Definition dragTranslate {number : Type} (add sub : number -> number -> number)
    (prevTranslate currentPosition startPos : number) : number :=
  sub (add prevTranslate currentPosition) startPos.


(** [['ArrowRight', 'ArrowLeft'].includes(key)] *)
Definition includes (l : list string) (key : string) : bool :=
  existsb (String.eqb key) l.

(** ** The render surface *)

Inductive Transition : Type :=
| TransitionNone                     (* 'none' *)
| TransformEaseOut (seconds : Q).    (* `transform ${transition}s ease-out` *)

Inductive Transform : Type :=
| TranslateX (px : Z).               (* `translateX(${px}px)` *)

Inductive Cursor : Type :=
| Grab
| Grabbing.

(** The inline style of the slider's [div]; [None] is a property that was
    never written. *)
Record Style : Type := mkStyle {
  style_transition : option Transition;
  style_transform : option Transform;
  style_cursor : option Cursor
}.

Definition unstyled : Style := mkStyle None None None.

Record Dimensions : Type := mkDimensions {
  width : Z;
  height : Z
}.

(** ** Events delivered by the browser *)

(** A pointer event is a touch event, with its first touch point and the
    remaining ones, or a mouse event. *)
Inductive PointerEvent : Type :=
| TouchEvent (first : Z) (others : list Z)
| MouseEvent (pageX : Z).

(** Modelled from the spec: [getPositionX] of [src/utils], which is not part
    of the sources at hand.  "Pointer coordinate extraction must normalize
    touch and mouse input into one horizontal scalar, using the first touch
    point when present." *)
Definition getPositionX (event : PointerEvent) : Z :=
  match event with
  | TouchEvent first _ => first
  | MouseEvent pageX => pageX
  end.

(** ** Props *)

(** [children] is only consulted for its length; a pane is represented by
    its key.  A callback prop is either supplied or not; what the host does
    inside it is outside the component. *)
Record SliderProps : Type := mkProps {
  children : list string;
  onSlideComplete : bool;
  onSlideStart : bool;
  activeIndex : option Z;
  threshHold : Z;
  transition : Q;
  scaleOnDrag : bool
}.

(** The defaults of the destructured parameter list. *)
Definition defaultProps (panes : list string) : SliderProps :=
  mkProps panes false false None 100 (3 # 10) false.

(** ** Component state *)

(** A call made to the host. *)
Inductive Call : Type :=
| SlideStart (index : option Z)
| SlideComplete (index : option Z).

Record Slider : Type := mkSlider {
  dimensions : Dimensions;           (* useState({ width: 0, height: 0 }), as the current render sees it *)
  queued : option Dimensions;        (* the last setDimensions(...) React has not rendered yet *)
  dragging : bool;                   (* useRef(false) *)
  startPos : Z;                      (* useRef(0) *)
  currentTranslate : Z;              (* useRef(0) *)
  prevTranslate : Z;                 (* useRef(0) *)
  currentIndex : option Z;           (* useRef<number | null>(0) *)
  sliderRef : option Style;          (* useRef<HTMLDivElement>(null) *)
  animationRef : option nat;         (* useRef<number | null>(null) *)
  frames : list nat;                 (* the browser's pending frame requests *)
  nextFrame : nat;                   (* the next request id it hands out *)
  calls : list Call                  (* host callbacks invoked so far, oldest first *)
}.

(** The refs as [Slider] creates them, before the surface is attached. *)
Definition initial : Slider :=
  mkSlider (mkDimensions 0 0) None false 0 0 0 (Some 0) None None [] 1%nat [].

(** React attaches the [div] to [sliderRef] when it commits the first
    render. *)
Definition attach (s : Slider) : Slider :=
  mkSlider (dimensions s) (queued s) (dragging s) (startPos s) (currentTranslate s)
    (prevTranslate s) (currentIndex s) (Some unstyled) (animationRef s)
    (frames s) (nextFrame s) (calls s).

Definition mounted : Slider := attach initial.

(** Field updates. *)
Definition set_dimensions (d : Dimensions) (s : Slider) : Slider :=
  mkSlider d (queued s) (dragging s) (startPos s) (currentTranslate s)
    (prevTranslate s) (currentIndex s) (sliderRef s) (animationRef s) (frames s) (nextFrame s)
    (calls s).

Definition set_queued (q : option Dimensions) (s : Slider) : Slider :=
  mkSlider (dimensions s) q (dragging s) (startPos s) (currentTranslate s)
    (prevTranslate s) (currentIndex s) (sliderRef s) (animationRef s)
    (frames s) (nextFrame s) (calls s).

Definition set_dragging (b : bool) (s : Slider) : Slider :=
  mkSlider (dimensions s) (queued s) b (startPos s) (currentTranslate s) (prevTranslate s)
    (currentIndex s) (sliderRef s) (animationRef s) (frames s) (nextFrame s)
    (calls s).

Definition set_startPos (x : Z) (s : Slider) : Slider :=
  mkSlider (dimensions s) (queued s) (dragging s) x (currentTranslate s) (prevTranslate s)
    (currentIndex s) (sliderRef s) (animationRef s) (frames s) (nextFrame s)
    (calls s).

Definition set_currentTranslate (x : Z) (s : Slider) : Slider :=
  mkSlider (dimensions s) (queued s) (dragging s) (startPos s) x (prevTranslate s)
    (currentIndex s) (sliderRef s) (animationRef s) (frames s) (nextFrame s)
    (calls s).

Definition set_prevTranslate (x : Z) (s : Slider) : Slider :=
  mkSlider (dimensions s) (queued s) (dragging s) (startPos s) (currentTranslate s) x
    (currentIndex s) (sliderRef s) (animationRef s) (frames s) (nextFrame s)
    (calls s).

Definition set_currentIndex (i : option Z) (s : Slider) : Slider :=
  mkSlider (dimensions s) (queued s) (dragging s) (startPos s) (currentTranslate s)
    (prevTranslate s) i (sliderRef s) (animationRef s) (frames s) (nextFrame s)
    (calls s).

Definition set_style (st : Style) (s : Slider) : Slider :=
  mkSlider (dimensions s) (queued s) (dragging s) (startPos s) (currentTranslate s)
    (prevTranslate s) (currentIndex s) (Some st) (animationRef s) (frames s)
    (nextFrame s) (calls s).

Definition set_animationRef (h : option nat) (s : Slider) : Slider :=
  mkSlider (dimensions s) (queued s) (dragging s) (startPos s) (currentTranslate s)
    (prevTranslate s) (currentIndex s) (sliderRef s) h (frames s) (nextFrame s)
    (calls s).

Definition set_frames (fs : list nat) (n : nat) (s : Slider) : Slider :=
  mkSlider (dimensions s) (queued s) (dragging s) (startPos s) (currentTranslate s)
    (prevTranslate s) (currentIndex s) (sliderRef s) (animationRef s) fs n
    (calls s).

Definition log_call (c : Call) (s : Slider) : Slider :=
  mkSlider (dimensions s) (queued s) (dragging s) (startPos s) (currentTranslate s)
    (prevTranslate s) (currentIndex s) (sliderRef s) (animationRef s)
    (frames s) (nextFrame s) (calls s ++ [c]).

(** ** Handlers: state passing with JavaScript's exceptions

    A handler either completes normally or throws a [TypeError]; what it
    wrote to the refs before throwing stays written. *)

Inductive Completion (A : Type) : Type :=
| Normal (a : A)
| TypeError.
Arguments Normal {A} a.
Arguments TypeError {A}.

Definition Handler (A : Type) : Type := Slider -> Completion A * Slider.

Definition ret {A : Type} (a : A) : Handler A := fun s => (Normal a, s).

Definition bind {A B : Type} (m : Handler A) (k : A -> Handler B) : Handler B :=
  fun s =>
    match m s with
    | (Normal a, s') => k a s'
    | (TypeError, s') => (TypeError, s')
    end.

Definition get : Handler Slider := fun s => (Normal s, s).

Definition modify (f : Slider -> Slider) : Handler unit :=
  fun s => (Normal tt, f s).

Definition throw {A : Type} : Handler A := fun s => (TypeError, s).

Definition when (b : bool) (m : Handler unit) : Handler unit :=
  if b then m else ret tt.

Declare Scope handler_scope.
Delimit Scope handler_scope with handler.
Notation "x <- m ;; k" := (bind m (fun x => k))
  (at level 61, m at next level, right associativity) : handler_scope.
Notation "m ;; k" := (bind m (fun _ => k))
  (at level 61, right associativity) : handler_scope.
Local Open Scope handler_scope.

(** The state a handler leaves behind, and how it completed. *)
Definition exec {A : Type} (m : Handler A) (s : Slider) : Slider := snd (m s).
Definition completion {A : Type} (m : Handler A) (s : Slider) : Completion A :=
  fst (m s).

(** ** The browser's frame queue *)

(** [requestAnimationFrame(callback)]: queue a frame, return its id. *)
Definition requestAnimationFrame : Handler nat :=
  s <- get ;;
  modify (set_frames (frames s ++ [nextFrame s]) (S (nextFrame s))) ;;
  ret (nextFrame s).

(** [cancelAnimationFrame(id)]; an id that is [null] cancels nothing. *)
Definition cancelAnimationFrame (id : option nat) : Handler unit :=
  match id with
  | None => ret tt
  | Some h =>
      s <- get ;;
      modify (set_frames (filter (fun f => negb (Nat.eqb f h)) (frames s))
                (nextFrame s))
  end.

(** ** The component *)

Section Component.

Variable props : SliderProps.

(** [children.length] *)
Definition children_length : Z := Z.of_nat (List.length (children props)).

Definition setSliderPosition : Handler unit :=
  s <- get ;;
  match sliderRef s with
  | None => ret tt
  | Some el =>
      modify (set_style
                (mkStyle (style_transition el)
                   (Some (TranslateX (currentTranslate s)))
                   (style_cursor el)))
  end.

(** [setPositionByIndex(w = dimensions.width)]: the argument is [None]
    when the caller passes none. *)
Definition setPositionByIndex (w : option Z) : Handler unit :=
  s <- get ;;
  let w := match w with
           | Some w => w
           | None => width (dimensions s)
           end in
  modify (set_currentTranslate (toNumber (currentIndex s) * - w)) ;;
  s <- get ;;
  modify (set_prevTranslate (currentTranslate s)) ;;
  setSliderPosition.

Definition transitionOn : Handler unit :=
  s <- get ;;
  match sliderRef s with
  | Some el =>
      modify (set_style
                (mkStyle (Some (TransformEaseOut (transition props)))
                   (style_transform el) (style_cursor el)))
  | None => ret tt
  end.

Definition transitionOff : Handler unit :=
  s <- get ;;
  match sliderRef s with
  | Some el =>
      modify (set_style
                (mkStyle (Some TransitionNone) (style_transform el)
                   (style_cursor el)))
  | None => ret tt
  end.

(** The effect that watches the [activeIndex] prop. *)
Definition activeIndexEffect : Handler unit :=
  s <- get ;;
  when (strict_neq (activeIndex props) (currentIndex s))
    (transitionOn ;;
     modify (set_currentIndex (activeIndex props)) ;;
     setPositionByIndex None).

(** [setDimensions(d)]: React queues [d]; the handlers of the current
    render go on seeing the [dimensions] they captured. *)
Definition setDimensions (d : Dimensions) : Handler unit :=
  modify (set_queued (Some d)).

(** The layout effect: set the width after the first render and position
    by the start index.  [measured] is what [getElementDimensions] of
    [src/utils] reports for the surface. *)
Definition layoutEffect (measured : Dimensions) : Handler unit :=
  s <- get ;;
  match sliderRef s with
  | Some _ =>
      setDimensions measured ;;
      setPositionByIndex (Some (width measured))
  | None => ret tt
  end.

Definition handleResize (measured : Dimensions) : Handler unit :=
  transitionOff ;;
  s <- get ;;
  match sliderRef s with
  | Some _ =>
      setDimensions measured ;;
      setPositionByIndex (Some (width measured))
  | None => ret tt
  end.

Definition handleKeyDown (key : string) : Handler unit :=
  let arrowsPressed := includes ["ArrowRight"; "ArrowLeft"] key in
  when arrowsPressed transitionOn ;;
  s <- get ;;
  when (arrowsPressed && onSlideStart props)
    (modify (log_call (SlideStart (currentIndex s)))) ;;
  s <- get ;;
  when ((key =? "ArrowRight")%string
        && (toNumber (currentIndex s) <? children_length - 1))
    (modify (set_currentIndex (Some (toNumber (currentIndex s) + 1)))) ;;
  s <- get ;;
  when ((key =? "ArrowLeft")%string && (toNumber (currentIndex s) >? 0))
    (modify (set_currentIndex (Some (toNumber (currentIndex s) - 1)))) ;;
  s <- get ;;
  when (arrowsPressed && onSlideComplete props)
    (modify (log_call (SlideComplete (currentIndex s)))) ;;
  setPositionByIndex None.

Definition touchStart (index : Z) (event : PointerEvent) : Handler unit :=
  transitionOn ;;
  modify (set_currentIndex (Some index)) ;;
  modify (set_startPos (getPositionX event)) ;;
  modify (set_dragging true) ;;
  id <- requestAnimationFrame ;;
  modify (set_animationRef (Some id)) ;;
  s <- get ;;
  match sliderRef s with
  | Some el =>
      modify (set_style
                (mkStyle (style_transition el) (style_transform el)
                   (Some Grabbing)))
  | None => ret tt
  end ;;
  s <- get ;;
  when (onSlideStart props)
    (modify (log_call (SlideStart (currentIndex s)))).

Definition touchMove (event : PointerEvent) : Handler unit :=
  s <- get ;;
  when (dragging s)
    (let currentPosition := getPositionX event in
     modify (set_currentTranslate
               (dragTranslate Z.add Z.sub
                  (prevTranslate s) currentPosition (startPos s)))).

Definition touchEnd : Handler unit :=
  transitionOn ;;
  s <- get ;;
  cancelAnimationFrame (animationRef s) ;;
  modify (set_dragging false) ;;
  s <- get ;;
  let movedBy := currentTranslate s - prevTranslate s in
  (* if moved enough negative then snap to next slide if there is one *)
  when ((movedBy <? - threshHold props)
        && (toNumber (currentIndex s) <? children_length - 1))
    (modify (set_currentIndex (Some (toNumber (currentIndex s) + 1)))) ;;
  (* if moved enough positive then snap to previous slide if there is one *)
  s <- get ;;
  when ((movedBy >? threshHold props) && (toNumber (currentIndex s) >? 0))
    (modify (set_currentIndex (Some (toNumber (currentIndex s) - 1)))) ;;
  transitionOn ;;
  setPositionByIndex None ;;
  (* sliderRef.current!.style.cursor = 'grab' *)
  s <- get ;;
  match sliderRef s with
  | Some el =>
      modify (set_style
                (mkStyle (style_transition el) (style_transform el)
                   (Some Grab)))
  | None => throw
  end ;;
  s <- get ;;
  when (onSlideComplete props)
    (modify (log_call (SlideComplete (currentIndex s)))).

(** One frame of the render loop.  The re-armed request's id is dropped,
    as in the source. *)
Definition animation : Handler unit :=
  setSliderPosition ;;
  s <- get ;;
  when (dragging s) (requestAnimationFrame ;; ret tt).

(** [onMouseLeave] *)
Definition mouseLeave : Handler unit :=
  s <- get ;;
  when (dragging s) touchEnd.

(** ** Everything that can happen to a mounted slider *)

Inductive Event : Type :=
| ActiveIndexObserved
| Layout (measured : Dimensions)
| Resize (measured : Dimensions)
| KeyDown (key : string)
| PointerDown (index : Z) (event : PointerEvent)
| PointerMove (event : PointerEvent)
| PointerUp
| PointerLeave
| Frame
| Rendered (measured : Dimensions).

(** The browser runs the oldest pending frame request, if there is one. *)
Definition runFrame : Handler unit :=
  s <- get ;;
  match frames s with
  | [] => ret tt
  | _ :: rest => modify (set_frames rest (nextFrame s)) ;; animation
  end.

(** React renders again after a [setDimensions].  The new render sees the
    queued dimensions.  [setPositionByIndex] is re-created when
    [dimensions.width] changed (its dependency array, line 47), and then
    the layout effect (line 77) and the activeIndex effect (line 66), which
    depend on it, run again, in that order; [measured] is what the layout
    effect measures.  The key and resize listeners are registered again
    with the new closure (line 116). *)
Definition rerender (measured : Dimensions) : Handler unit :=
  s <- get ;;
  match queued s with
  | None => ret tt
  | Some d =>
      modify (set_dimensions d) ;;
      modify (set_queued None) ;;
      when (negb (width d =? width (dimensions s)))
        (layoutEffect measured ;; activeIndexEffect)
  end.

Definition dispatch (e : Event) : Handler unit :=
  match e with
  | ActiveIndexObserved => activeIndexEffect
  | Layout measured => layoutEffect measured
  | Resize measured => handleResize measured
  | KeyDown key => handleKeyDown key
  | PointerDown index event => touchStart index event
  | PointerMove event => touchMove event
  | PointerUp => touchEnd
  | PointerLeave => mouseLeave
  | Frame => runFrame
  | Rendered measured => rerender measured
  end.

End Component.

(** Lines 147-152 of [touchEnd] as a function of the index: two
    successive [if]s, the second reading what the first wrote. *)
Definition release_index (n threshold movedBy : Z) (index : option Z)
  : option Z :=
  let index1 :=
    if (movedBy <? - threshold) && (toNumber index <? n - 1)
    then Some (toNumber index + 1) else index in
  if (movedBy >? threshold) && (toNumber index1 >? 0)
  then Some (toNumber index1 - 1) else index1.

(** The snap decision as the specification words it: one [if], one
    [else if], otherwise unchanged. *)
Definition snapOnRelease_spec (n movedBy threshold index : Z) : Z :=
  if (movedBy <? - threshold) && (index <? n - 1) then index + 1
  else if (movedBy >? threshold) && (index >? 0) then index - 1
  else index.

(** The committed position: when no drag is open, both translates are the
    offset of the current index at the width the current render sees. *)
Definition committed (s : Slider) : Prop :=
  dragging s = false ->
  currentTranslate s = toNumber (currentIndex s) * - width (dimensions s)
  /\ prevTranslate s = toNumber (currentIndex s) * - width (dimensions s).

(** A slider at rest on pane [i] of a surface [w] pixels wide. *)
Definition resting (i w : Z) : Slider :=
  mkSlider (mkDimensions w 0) None false 0 (i * - w) (i * - w) (Some i)
    (Some (mkStyle None (Some (TranslateX (i * - w))) None)) None [] 1%nat [].

Definition five : list string := ["a"; "b"; "c"; "d"; "e"].


(** A history of the component: the events it handled, each with the props
    of the render whose closures handled it.  A handler that raises leaves
    its writes behind and the next event is handled as usual. *)
Fixpoint run (history : list (SliderProps * Event)) (s : Slider) : Slider :=
  match history with
  | [] => s
  | (p, e) :: rest => run rest (exec (dispatch p e) s)
  end.

(** ** Concrete sliders used as examples *)

(** Five panes, both callbacks supplied, the default threshold. *)
Definition scenarioProps : SliderProps :=
  mkProps five true true None 100 (3 # 10) false.

(** The same with a threshold below zero. *)
Definition negativeThreshold : SliderProps :=
  mkProps five true true None (-100) (3 # 10) false.

(** Pane 1 of a 300 pixel surface, grabbed at x = 500 and pulled 150 pixels
    to the left. *)
Definition pulledLeft : Slider :=
  exec (touchMove (MouseEvent 350))
    (exec (touchStart scenarioProps 1 (MouseEvent 500)) (resting 1 300)).

(** Pane 2, grabbed at x = 500 and pulled 50 pixels to the left, after the
    next frame has rendered. *)
Definition nudged : Slider :=
  exec runFrame
    (exec (touchMove (MouseEvent 450))
       (exec (touchStart scenarioProps 2 (MouseEvent 500)) (resting 2 300))).

(** ** Ranges and admissible events *)

(** The index, read as a number, designates one of the panes. *)
Definition index_in_range (p : SliderProps) (s : Slider) : Prop :=
  0 <= toNumber (currentIndex s) <= children_length p - 1.

(** The index is a number, not [null], and designates one of the panes. *)
Definition index_on_pane (p : SliderProps) (s : Slider) : Prop :=
  exists i, currentIndex s = Some i /\ 0 <= i <= children_length p - 1.

(** What the environment may hand to the component: a pointer goes down on
    a pane that is rendered ([touchStart(index)] is bound inside
    [children.map]), and whenever the activeIndex effect runs the host's
    [activeIndex] is a number that designates a pane. *)
Definition admissible (p : SliderProps) (e : Event) : Prop :=
  match e with
  | PointerDown index _ => 0 <= index <= children_length p - 1
  | ActiveIndexObserved | Rendered _ =>
      exists k, activeIndex p = Some k /\ 0 <= k <= children_length p - 1
  | _ => True
  end.


(** The last measured dimensions: those queued for the next render, or,
    when none is queued, those the current render sees. *)
Definition lastMeasured (s : Slider) : Dimensions :=
  match queued s with
  | Some d => d
  | None => dimensions s
  end.

(** The committed position read against the last measured width. *)
Definition committed_to_measured (s : Slider) : Prop :=
  dragging s = false ->
  currentTranslate s = toNumber (currentIndex s) * - width (lastMeasured s)
  /\ prevTranslate s = toNumber (currentIndex s) * - width (lastMeasured s).

(** The position at a width [w]. *)
Definition positioned_at (w : Z) (s : Slider) : Prop :=
  currentTranslate s = toNumber (currentIndex s) * - w
  /\ prevTranslate s = toNumber (currentIndex s) * - w.

(** What every handler keeps: only an attached surface is ever measured,
    and with no drag open the position is that of the current index at the
    width of the current render or at the measured width queued for the
    next one. *)
Definition positioned (s : Slider) : Prop :=
  (queued s <> None -> sliderRef s <> None)
  /\ (dragging s = false ->
      positioned_at (width (dimensions s)) s
      \/ exists d, queued s = Some d /\ positioned_at (width d) s).

(** Handlers that are wired to a gesture of the user. *)
Definition is_gesture (e : Event) : bool :=
  match e with
  | KeyDown _ | PointerDown _ _ | PointerUp | PointerLeave => true
  | _ => false
  end.

(** [n] frames in a row. *)
Fixpoint runFrames (n : nat) (s : Slider) : Slider :=
  match n with
  | O => s
  | S n' => runFrames n' (exec runFrame s)
  end.

(** ** The example host, [example/src/App.js] *)

Module App.

(** [increment]: [if (index < images.length - 1) setIndex(index + 1)];
    the result is the host's next [index] state. *)
Definition increment (images_length index : Z) : Z :=
  if index <? images_length - 1 then index + 1 else index.

(** [decrement]: [if (index > 0) setIndex(index - 1)] *)
Definition decrement (index : Z) : Z :=
  if index >? 0 then index - 1 else index.

(** The props [App] renders [Slider] with: both callbacks, its [index]
    state as [activeIndex], a threshold of 100; the panes are the images,
    given here by their keys. *)
Definition props (images : list string) (index : Z) : SliderProps :=
  mkProps images true true (Some index) 100 (3 # 10) false.

End App.

(** * Properties *)

Ltac unfold_handlers :=
  unfold exec, completion, dispatch, rerender, runFrame, mouseLeave,
    animation, touchEnd, touchMove, touchStart, handleKeyDown, handleResize,
    layoutEffect, setDimensions, activeIndexEffect, transitionOn,
    transitionOff, setPositionByIndex, setSliderPosition,
    cancelAnimationFrame, requestAnimationFrame, includes, when, bind, get, modify, throw, ret.

(** Case analysis on whether the surface is attached. *)
Ltac surface s :=
  destruct s as [dims queue drag start cur prev idx [el|] anim fs nf cs].

(** The specification's scenario, as a check of the embedding: five panes
    300 pixels wide, start on pane 1; a drag of 150 pixels to the left
    settles on pane 2 at translate -600 and calls the host once at each
    end. *)
Example scenario_drag_left :
  let s' := exec (touchEnd scenarioProps) pulledLeft in
  currentIndex s' = Some 2
  /\ currentTranslate s' = -600
  /\ calls s' = [SlideStart (Some 1); SlideComplete (Some 2)].
Proof. vm_compute. repeat split. Qed.

(** ** setPositionByIndex *)

Lemma setPositionByIndex_completes (a : option Z) (s : Slider) :
  completion (setPositionByIndex a) s = Normal tt.
Proof. surface s; reflexivity. Qed.

Lemma setPositionByIndex_translates (a : option Z) (s : Slider) :
  let w := match a with Some w => w | None => width (dimensions s) end in
  let s' := exec (setPositionByIndex a) s in
  currentTranslate s' = toNumber (currentIndex s) * - w
  /\ prevTranslate s' = toNumber (currentIndex s) * - w.
Proof. surface s; destruct a; split; reflexivity. Qed.

Lemma setPositionByIndex_frame (a : option Z) (s : Slider) :
  let s' := exec (setPositionByIndex a) s in
  dimensions s' = dimensions s /\ dragging s' = dragging s
  /\ currentIndex s' = currentIndex s /\ calls s' = calls s.
Proof. surface s; repeat split; reflexivity. Qed.

Lemma setPositionByIndex_idempotent (a : option Z) (s : Slider) :
  exec (setPositionByIndex a) (exec (setPositionByIndex a) s)
  = exec (setPositionByIndex a) s.
Proof. surface s; destruct a; reflexivity. Qed.

(** C6.  Round trip of position: for every index [i] and every width,
    whether passed or defaulted to [dimensions.width],
    [setPositionByIndex] completes and leaves both [currentTranslate] and
    [prevTranslate] equal to [i * -w]; a second call with the same index
    and width changes nothing. *)
Theorem setPositionByIndex_round_trip (a : option Z) (s : Slider) (i : Z) :
  currentIndex s = Some i ->
  let w := match a with Some w => w | None => width (dimensions s) end in
  let s' := exec (setPositionByIndex a) s in
  completion (setPositionByIndex a) s = Normal tt
  /\ currentTranslate s' = i * - w
  /\ prevTranslate s' = i * - w
  /\ currentIndex s' = Some i
  /\ exec (setPositionByIndex a) s' = s'.
Proof.
  intros Hi w s'.
  destruct (setPositionByIndex_translates a s) as [Hc Hp].
  destruct (setPositionByIndex_frame a s) as (_ & _ & Hidx & _).
  rewrite Hi in Hc, Hp, Hidx. simpl in Hc, Hp.
  repeat split; auto using setPositionByIndex_completes.
  apply setPositionByIndex_idempotent.
Qed.

Lemma setPositionByIndex_round_trip_witness :
  currentIndex (resting 2 300) = Some 2
  /\ currentTranslate (exec (setPositionByIndex (Some 250)) (resting 2 300))
     = -500.
Proof.
  split; [reflexivity |].
  exact (proj1 (proj2
    (setPositionByIndex_round_trip (Some 250) (resting 2 300) 2 eq_refl))).
Defined.

(** ** touchMove *)



(** ** touchEnd *)

Ltac branches :=
  repeat match goal with
         | |- context [if ?b then _ else _] => destruct b eqn:?; cbn
         end.

(** [touchEnd] run symbolically: how it completes and the refs it leaves
    behind, whether or not it raises on the detached surface. *)
Lemma touchEnd_run (p : SliderProps) (s : Slider) :
  touchEnd p s
  = let i' := release_index (children_length p) (threshHold p)
                (currentTranslate s - prevTranslate s) (currentIndex s) in
    let x := toNumber i' * - width (dimensions s) in
    (match sliderRef s with
     | Some _ => Normal tt
     | None => TypeError
     end,
     mkSlider (dimensions s) (queued s) false (startPos s) x x i'
       (option_map
          (fun _ => mkStyle (Some (TransformEaseOut (transition p)))
                      (Some (TranslateX x)) (Some Grab))
          (sliderRef s))
       (animationRef s)
       (match animationRef s with
        | Some h => filter (fun f => negb (Nat.eqb f h)) (frames s)
        | None => frames s
        end)
       (nextFrame s)
       (calls s ++
        match sliderRef s with
        | Some _ => if onSlideComplete p then [SlideComplete i'] else []
        | None => []
        end)).
Proof.
  unfold release_index.
  surface s; destruct anim; unfold_handlers; cbn; branches;
    rewrite ?app_nil_r; reflexivity.
Qed.

Lemma touchEnd_index (p : SliderProps) (s : Slider) :
  currentIndex (exec (touchEnd p) s)
  = release_index (children_length p) (threshHold p)
      (currentTranslate s - prevTranslate s) (currentIndex s).
Proof. unfold exec. rewrite touchEnd_run. reflexivity. Qed.

Lemma touchEnd_completion (p : SliderProps) (s : Slider) :
  completion (touchEnd p) s
  = match sliderRef s with
    | Some _ => Normal tt
    | None => TypeError
    end.
Proof. unfold completion. rewrite touchEnd_run. reflexivity. Qed.

Lemma touchEnd_translates (p : SliderProps) (s : Slider) :
  let s' := exec (touchEnd p) s in
  dragging s' = false
  /\ dimensions s' = dimensions s
  /\ currentTranslate s' = toNumber (currentIndex s') * - width (dimensions s)
  /\ prevTranslate s' = toNumber (currentIndex s') * - width (dimensions s).
Proof. unfold exec. rewrite touchEnd_run. repeat split. Qed.

Lemma touchEnd_calls (p : SliderProps) (s : Slider) :
  let s' := exec (touchEnd p) s in
  calls s'
  = calls s ++
    match sliderRef s with
    | Some _ =>
        if onSlideComplete p then [SlideComplete (currentIndex s')] else []
    | None => []
    end.
Proof. unfold exec. rewrite touchEnd_run. reflexivity. Qed.

(** For a threshold that is not negative the two [if]s of the source
    decide what the specification's [if ... else if] decides. *)
Lemma release_index_spec (n threshold movedBy i : Z) :
  0 <= threshold ->
  release_index n threshold movedBy (Some i)
  = Some (snapOnRelease_spec n movedBy threshold i).
Proof.
  intros Ht. unfold release_index, snapOnRelease_spec. cbn.
  destruct (Z.ltb_spec movedBy (- threshold));
    destruct (Z.ltb_spec i (n - 1)); cbn;
    destruct (Z.gtb_spec movedBy threshold); cbn; try lia;
    try reflexivity;
    destruct (Z.gtb_spec i 0); reflexivity.
Qed.

(** C1, for thresholds that are not negative.  For every index in
    [0, N-1] and every [movedBy], releasing a drag increments the index when
    [movedBy < -threshold] and [index < N-1], decrements it when
    [movedBy > threshold] and [index > 0], and leaves it unchanged
    otherwise.  In particular [|movedBy| <= threshold] leaves the index
    unchanged, [movedBy > threshold] at index 0 leaves it at 0, and
    [movedBy < -threshold] at index [N-1] leaves it at [N-1]. *)
Theorem touchEnd_snap (p : SliderProps) (s : Slider) (i : Z) :
  0 <= threshHold p ->
  currentIndex s = Some i ->
  0 <= i <= children_length p - 1 ->
  let n := children_length p in
  let movedBy := currentTranslate s - prevTranslate s in
  let i' := currentIndex (exec (touchEnd p) s) in
  i' = Some (snapOnRelease_spec n movedBy (threshHold p) i)
  /\ (movedBy < - threshHold p -> i < n - 1 -> i' = Some (i + 1))
  /\ (movedBy > threshHold p -> i > 0 -> i' = Some (i - 1))
  /\ (~ (movedBy < - threshHold p /\ i < n - 1) ->
      ~ (movedBy > threshHold p /\ i > 0) -> i' = Some i)
  /\ (Z.abs movedBy <= threshHold p -> i' = Some i)
  /\ (i = 0 -> movedBy > threshHold p -> i' = Some 0)
  /\ (i = n - 1 -> movedBy < - threshHold p -> i' = Some (n - 1)).
Proof.
  intros Ht Hi Hrange n movedBy i'.
  assert (E : i' = Some (snapOnRelease_spec n movedBy (threshHold p) i)).
  { subst i'. rewrite touchEnd_index, Hi. now apply release_index_spec. }
  rewrite E. unfold snapOnRelease_spec.
  destruct (Z.ltb_spec movedBy (- threshHold p));
    destruct (Z.ltb_spec i (n - 1));
    destruct (Z.gtb_spec movedBy (threshHold p));
    destruct (Z.gtb_spec i 0); cbn;
    repeat split; intros; subst; try reflexivity; try (f_equal; lia);
    try lia; exfalso; tauto.
Qed.

Lemma touchEnd_snap_witness :
  0 <= threshHold scenarioProps
  /\ currentIndex pulledLeft = Some 1
  /\ 0 <= 1 <= children_length scenarioProps - 1
  /\ currentIndex (exec (touchEnd scenarioProps) pulledLeft) = Some 2.
Proof.
  assert (Ht : 0 <= threshHold scenarioProps) by (cbn; lia).
  assert (Hr : 0 <= 1 <= children_length scenarioProps - 1)
    by (unfold children_length; cbn; lia).
  split; [exact Ht | split; [reflexivity | split; [exact Hr |]]].
  exact (proj1 (touchEnd_snap scenarioProps pulledLeft 1 Ht eq_refl Hr)).
Defined.

(** C1 as stated, for every threshold, fails below zero: with threshold
    -100 a release that did not move at all satisfies
    [movedBy < -threshold] at index 1 of 5, yet the index is still 1
    afterwards and not 2. *)
Lemma touchEnd_snap_negative_threshold :
  let p := negativeThreshold in
  let s := resting 1 300 in
  let movedBy := currentTranslate s - prevTranslate s in
  currentIndex s = Some 1
  /\ 0 <= 1 <= children_length p - 1
  /\ movedBy < - threshHold p
  /\ 1 < children_length p - 1
  /\ currentIndex (exec (touchEnd p) s) = Some 1
  /\ currentIndex (exec (touchEnd p) s)
     <> Some (snapOnRelease_spec (children_length p) movedBy (threshHold p) 1).
Proof.
  cbv zeta. unfold children_length. cbn.
  repeat split; try lia; try reflexivity; discriminate.
Qed.

(** C10.  With a threshold that is not negative the two guards of
    [touchEnd] cannot both hold, so one release moves the index by at most
    one, and an index inside [0, N-1] stays inside. *)
Theorem touchEnd_moves_at_most_one (p : SliderProps) (s : Slider) :
  0 <= threshHold p ->
  let n := children_length p in
  let movedBy := currentTranslate s - prevTranslate s in
  let i := toNumber (currentIndex s) in
  let i' := toNumber (currentIndex (exec (touchEnd p) s)) in
  ~ (movedBy < - threshHold p /\ movedBy > threshHold p)
  /\ Z.abs (i' - i) <= 1
  /\ (0 <= i <= n - 1 -> 0 <= i' <= n - 1).
Proof.
  intros Ht n movedBy i i'. subst i'. rewrite touchEnd_index.
  fold n movedBy. unfold release_index. fold i.
  destruct (Z.ltb_spec movedBy (- threshHold p));
    destruct (Z.ltb_spec i (n - 1)); cbn;
    destruct (Z.gtb_spec movedBy (threshHold p)); cbn; fold i;
    try destruct (Z.gtb_spec i 0); try destruct (Z.gtb_spec (i + 1) 0); cbn;
    repeat split; try lia.
Qed.

Lemma touchEnd_moves_at_most_one_witness :
  0 <= threshHold scenarioProps
  /\ Z.abs (toNumber (currentIndex (exec (touchEnd scenarioProps) pulledLeft))
            - toNumber (currentIndex pulledLeft)) <= 1.
Proof.
  assert (Ht : 0 <= threshHold scenarioProps) by (cbn; lia).
  split; [exact Ht |].
  exact (proj1 (proj2
    (touchEnd_moves_at_most_one scenarioProps pulledLeft Ht))).
Defined.

(** C4.  [touchEnd] does not look at [dragging].  On a slider at rest on
    pane 2, with no drag open, it leaves the index and both translates as
    they were but still calls [onSlideComplete]; and after a drag has been
    released, a second [touchEnd] calls [onSlideComplete] once more. *)
Theorem touchEnd_without_drag_calls_host :
  let s := resting 2 300 in
  let s' := exec (touchEnd scenarioProps) s in
  let released := exec (touchEnd scenarioProps) pulledLeft in
  dragging s = false
  /\ currentIndex s' = currentIndex s
  /\ currentTranslate s' = currentTranslate s
  /\ prevTranslate s' = prevTranslate s
  /\ calls s = []
  /\ calls s' = [SlideComplete (Some 2)]
  /\ dragging released = false
  /\ calls released = [SlideStart (Some 1); SlideComplete (Some 2)]
  /\ calls (exec (touchEnd scenarioProps) released)
     = [SlideStart (Some 1); SlideComplete (Some 2); SlideComplete (Some 2)].
Proof. cbv zeta. repeat split. Qed.

(** What does hold of a release with no drag open: on a committed position
    and with a threshold that is not negative, the refs keep their values;
    only the host is called. *)
Lemma touchEnd_without_drag_refs (p : SliderProps) (s : Slider) :
  0 <= threshHold p ->
  dragging s = false ->
  committed s ->
  let s' := exec (touchEnd p) s in
  currentIndex s' = currentIndex s
  /\ currentTranslate s' = currentTranslate s
  /\ prevTranslate s' = prevTranslate s
  /\ dragging s' = false.
Proof.
  intros Ht Hd Hc s'. destruct (Hc Hd) as [Hcur Hprev].
  destruct (touchEnd_translates p s) as (Hd' & _ & Hcur' & Hprev').
  assert (Hi : currentIndex s' = currentIndex s).
  { subst s'. rewrite touchEnd_index. unfold release_index.
    replace (currentTranslate s - prevTranslate s) with 0 by lia.
    destruct (Z.ltb_spec 0 (- threshHold p)); [lia |].
    destruct (Z.gtb_spec 0 (threshHold p)); [lia |]. reflexivity. }
  fold s' in Hd', Hcur', Hprev'. rewrite Hi in Hcur', Hprev'.
  repeat split; congruence.
Qed.


(** Every other handler completes with the surface detached, and writes
    no style. *)
Lemma detached_handlers_complete (p : SliderProps) (e : Event) (s : Slider) :
  sliderRef s = None ->
  e <> PointerUp ->
  (e = PointerLeave -> dragging s = false) ->
  completion (dispatch p e) s = Normal tt
  /\ sliderRef (exec (dispatch p e) s) = None.
Proof.
  intros Hs Hup Hleave.
  destruct s as [dims queue drag start cur prev idx el anim fs nf cs].
  cbn in Hs. subst el.
  destruct e; try congruence;
    try (specialize (Hleave eq_refl); cbn in Hleave; subst drag);
    try destruct fs; try destruct queue;
    unfold_handlers; cbn; branches; split; reflexivity.
Qed.

(** ** handleKeyDown *)

(** C5.  On ArrowRight or ArrowLeft: [onSlideStart], if supplied, is called
    with the index before the press; the index is incremented (ArrowRight,
    only below [N-1]) or decremented (ArrowLeft, only above 0);
    [onSlideComplete], if supplied, is called with the index after the
    press; and the position is set from that index, with the settle
    animation on.  When the index does not move both callbacks are still
    called, with the same index. *)
Theorem handleKeyDown_directional
    (p : SliderProps) (key : string) (s : Slider) :
  key = "ArrowRight" \/ key = "ArrowLeft" ->
  let n := children_length p in
  let pre := currentIndex s in
  let s' := exec (handleKeyDown p key) s in
  let post := currentIndex s' in
  let started := if onSlideStart p then [SlideStart pre] else [] in
  completion (handleKeyDown p key) s = Normal tt
  /\ (key = "ArrowRight" ->
      post = if toNumber pre <? n - 1 then Some (toNumber pre + 1) else pre)
  /\ (key = "ArrowLeft" ->
      post = if toNumber pre >? 0 then Some (toNumber pre - 1) else pre)
  /\ calls s'
     = calls s ++ started
       ++ (if onSlideComplete p then [SlideComplete post] else [])
  /\ (post = pre ->
      calls s'
      = calls s ++ started
        ++ (if onSlideComplete p then [SlideComplete pre] else []))
  /\ currentTranslate s' = toNumber post * - width (dimensions s)
  /\ prevTranslate s' = toNumber post * - width (dimensions s)
  /\ match sliderRef s' with
     | Some el =>
         style_transform el
         = Some (TranslateX (toNumber post * - width (dimensions s)))
         /\ style_transition el = Some (TransformEaseOut (transition p))
     | None => sliderRef s = None
     end.
Proof.
  intros [-> | ->]; surface s; unfold_handlers; cbn; branches;
    rewrite ?app_nil_r, <- ?app_assoc; cbn;
    repeat split; intros; try discriminate; try reflexivity; congruence.
Qed.

Lemma handleKeyDown_directional_witness :
  ("ArrowRight" = "ArrowRight" \/ "ArrowRight" = "ArrowLeft")
  /\ calls (exec (handleKeyDown scenarioProps "ArrowRight") (resting 4 300))
     = calls (resting 4 300)
       ++ [SlideStart (Some 4)]
       ++ [SlideComplete
             (currentIndex
                (exec (handleKeyDown scenarioProps "ArrowRight")
                   (resting 4 300)))].
Proof.
  split; [left; reflexivity |].
  exact (proj1 (proj2 (proj2 (proj2
    (handleKeyDown_directional scenarioProps "ArrowRight" (resting 4 300)
       (or_introl eq_refl)))))).
Defined.

(** What a key that is neither arrow does: no transition, no callback, no
    index change, but the position is recomputed all the same. *)
Lemma handleKeyDown_other_key (p : SliderProps) (key : string) (s : Slider) :
  includes ["ArrowRight"; "ArrowLeft"] key = false ->
  handleKeyDown p key s = setPositionByIndex None s.
Proof.
  intros H. unfold handleKeyDown. rewrite H.
  unfold includes in H. cbn in H.
  apply orb_false_elim in H. destruct H as [Hr Hl].
  apply orb_false_elim in Hl. destruct Hl as [Hl _].
  rewrite Hr, Hl. surface s; reflexivity.
Qed.

(** C3.  A key that is neither arrow still reaches the unguarded
    [setPositionByIndex()] at the end of [handleKeyDown].  Pressed while
    pane 2 is being dragged 50 pixels to the left, the key "a" resets
    [currentTranslate] from -650 to -600 and re-renders the surface there;
    the index and the calls to the host are untouched. *)
Theorem handleKeyDown_other_key_repositions :
  let s := nudged in
  let s' := exec (handleKeyDown scenarioProps "a") s in
  includes ["ArrowRight"; "ArrowLeft"] "a" = false
  /\ dragging s = true
  /\ currentTranslate s = -650
  /\ option_map style_transform (sliderRef s)
     = Some (Some (TranslateX (-650)))
  /\ currentTranslate s' = -600
  /\ option_map style_transform (sliderRef s')
     = Some (Some (TranslateX (-600)))
  /\ currentIndex s' = currentIndex s
  /\ calls s' = calls s.
Proof. vm_compute. repeat split. Qed.

(** [handleKeyDown] run symbolically, for any key. *)
Lemma handleKeyDown_run (p : SliderProps) (key : string) (s : Slider) :
  handleKeyDown p key s
  = let arrowsPressed := includes ["ArrowRight"; "ArrowLeft"] key in
    let pre := currentIndex s in
    let index1 :=
      if (key =? "ArrowRight")%string
         && (toNumber pre <? children_length p - 1)
      then Some (toNumber pre + 1) else pre in
    let post :=
      if (key =? "ArrowLeft")%string && (toNumber index1 >? 0)
      then Some (toNumber index1 - 1) else index1 in
    let x := toNumber post * - width (dimensions s) in
    (Normal tt,
     mkSlider (dimensions s) (queued s) (dragging s) (startPos s) x x post
       (option_map
          (fun el =>
             mkStyle
               (if arrowsPressed
                then Some (TransformEaseOut (transition p))
                else style_transition el)
               (Some (TranslateX x)) (style_cursor el))
          (sliderRef s))
       (animationRef s) (frames s) (nextFrame s)
       ((calls s ++
         (if arrowsPressed && onSlideStart p then [SlideStart pre] else []))
        ++ (if arrowsPressed && onSlideComplete p
            then [SlideComplete post] else []))).
Proof.
  surface s; unfold_handlers; cbn; branches; rewrite ?app_nil_r;
    try reflexivity; destruct el; reflexivity.
Qed.

(** ** The effect watching activeIndex *)

Lemma strict_neq_spec (a b : option Z) :
  strict_neq a b = true <-> a <> b.
Proof.
  destruct a as [x|], b as [y|]; cbn; split; intros H;
    try congruence; try discriminate.
  - apply negb_true_iff, Z.eqb_neq in H. congruence.
  - apply negb_true_iff, Z.eqb_neq. congruence.
Qed.

(** The effect run symbolically: nothing at all when the prop equals the
    internal index, otherwise the prop becomes the index, [null] included,
    and the position is set from it. *)
Lemma activeIndexEffect_run (p : SliderProps) (s : Slider) :
  activeIndexEffect p s
  = (Normal tt,
     if strict_neq (activeIndex p) (currentIndex s)
     then
       let x := toNumber (activeIndex p) * - width (dimensions s) in
       mkSlider (dimensions s) (queued s) (dragging s) (startPos s) x x (activeIndex p)
         (option_map
            (fun el => mkStyle (Some (TransformEaseOut (transition p)))
                         (Some (TranslateX x)) (style_cursor el))
            (sliderRef s))
         (animationRef s) (frames s) (nextFrame s) (calls s)
     else s).
Proof. surface s; unfold_handlers; cbn; branches; reflexivity. Qed.

(** The part of C2 that holds: an external index [k] that differs from the
    internal one becomes the internal index, the position is set from it,
    and the host is not called. *)
Lemma activeIndexEffect_overrides (p : SliderProps) (s : Slider) (k : Z) :
  activeIndex p = Some k ->
  currentIndex s <> Some k ->
  let s' := exec (activeIndexEffect p) s in
  completion (activeIndexEffect p) s = Normal tt
  /\ currentIndex s' = Some k
  /\ currentTranslate s' = k * - width (dimensions s)
  /\ prevTranslate s' = k * - width (dimensions s)
  /\ calls s' = calls s.
Proof.
  intros Hk Hne. unfold exec, completion. rewrite activeIndexEffect_run.
  assert (E : strict_neq (activeIndex p) (currentIndex s) = true)
    by (apply strict_neq_spec; congruence).
  rewrite E, Hk. repeat split.
Qed.

(** C2.  The effect compares the prop with the internal index and nothing
    else: an [activeIndex] of [null], the default of an uncontrolled
    slider, differs from the internal index 2 and overwrites it with
    [null]; the position is then set from [null], at translate 0. *)
Theorem activeIndexEffect_null_overwrites :
  let p := defaultProps five in
  let s := resting 2 300 in
  let s' := exec (activeIndexEffect p) s in
  activeIndex p = None
  /\ currentIndex s = Some 2
  /\ currentTranslate s = -600
  /\ currentIndex s' = None
  /\ currentTranslate s' = 0
  /\ prevTranslate s' = 0.
Proof. vm_compute. repeat split. Qed.

(** ** Pointer move, pointer down and frames, run symbolically *)

Lemma touchMove_run (event : PointerEvent) (s : Slider) :
  touchMove event s
  = (Normal tt,
     if dragging s
     then set_currentTranslate
            (prevTranslate s + getPositionX event - startPos s) s
     else s).
Proof.
  destruct s as [dims queue [|] start cur prev idx el anim fs nf cs]; reflexivity.
Qed.

Lemma touchStart_dragging (p : SliderProps) (i : Z) (event : PointerEvent)
    (s : Slider) :
  dragging (exec (touchStart p i event) s) = true.
Proof. surface s; unfold_handlers; cbn; branches; reflexivity. Qed.

Lemma runFrame_refs (s : Slider) :
  let s' := exec runFrame s in
  dimensions s' = dimensions s /\ dragging s' = dragging s
  /\ currentTranslate s' = currentTranslate s
  /\ prevTranslate s' = prevTranslate s
  /\ currentIndex s' = currentIndex s.
Proof.
  surface s; destruct fs, drag; repeat split; reflexivity.
Qed.

(** * Further properties of the handlers *)

(** ** Symbolic runs *)

Lemma touchStart_run (p : SliderProps) (i : Z) (event : PointerEvent)
    (s : Slider) :
  touchStart p i event s
  = (Normal tt,
     mkSlider (dimensions s) (queued s) true (getPositionX event) (currentTranslate s)
       (prevTranslate s) (Some i)
       (option_map
          (fun el => mkStyle (Some (TransformEaseOut (transition p)))
                       (style_transform el) (Some Grabbing))
          (sliderRef s))
       (Some (nextFrame s)) (frames s ++ [nextFrame s]) (S (nextFrame s))
       (calls s ++ if onSlideStart p then [SlideStart (Some i)] else [])).
Proof.
  surface s; unfold_handlers; cbn; branches; rewrite ?app_nil_r; reflexivity.
Qed.

Lemma handleResize_run (measured : Dimensions) (s : Slider) :
  handleResize measured s
  = (Normal tt,
     match sliderRef s with
     | Some el =>
         let x := toNumber (currentIndex s) * - width measured in
         mkSlider (dimensions s) (Some measured) (dragging s) (startPos s) x x (currentIndex s)
           (Some (mkStyle (Some TransitionNone) (Some (TranslateX x))
                    (style_cursor el)))
           (animationRef s) (frames s) (nextFrame s) (calls s)
     | None => s
     end).
Proof. surface s; reflexivity. Qed.

Lemma layoutEffect_run (measured : Dimensions) (s : Slider) :
  layoutEffect measured s
  = (Normal tt,
     match sliderRef s with
     | Some el =>
         let x := toNumber (currentIndex s) * - width measured in
         mkSlider (dimensions s) (Some measured) (dragging s) (startPos s) x x (currentIndex s)
           (Some (mkStyle (style_transition el) (Some (TranslateX x))
                    (style_cursor el)))
           (animationRef s) (frames s) (nextFrame s) (calls s)
     | None => s
     end).
Proof. surface s; reflexivity. Qed.

Lemma runFrame_run (s : Slider) :
  runFrame s
  = (Normal tt,
     match frames s with
     | [] => s
     | _ :: rest =>
         mkSlider (dimensions s) (queued s) (dragging s) (startPos s)
           (currentTranslate s) (prevTranslate s) (currentIndex s)
           (option_map
              (fun el => mkStyle (style_transition el)
                           (Some (TranslateX (currentTranslate s)))
                           (style_cursor el))
              (sliderRef s))
           (animationRef s)
           (if dragging s then rest ++ [nextFrame s] else rest)
           (if dragging s then S (nextFrame s) else nextFrame s)
           (calls s)
     end).
Proof. surface s; destruct fs, drag; reflexivity. Qed.

(** ** Resize and first layout *)

(** X1.  A resize never calls the host and never moves the index or the
    dragging flag.  On an attached surface it hands the measured
    dimensions to [setDimensions], for the next render to take up, puts
    both translates at [index * -width] for the measured
    width, renders there and switches the transition off; on a detached
    surface it changes nothing. *)
Theorem handleResize_repositions (measured : Dimensions) (s : Slider) :
  let s' := exec (handleResize measured) s in
  let x := toNumber (currentIndex s) * - width measured in
  completion (handleResize measured) s = Normal tt
  /\ calls s' = calls s
  /\ currentIndex s' = currentIndex s
  /\ dragging s' = dragging s
  /\ match sliderRef s with
     | Some el =>
         queued s' = Some measured
         /\ dimensions s' = dimensions s
         /\ currentTranslate s' = x
         /\ prevTranslate s' = x
         /\ sliderRef s'
            = Some (mkStyle (Some TransitionNone) (Some (TranslateX x))
                      (style_cursor el))
     | None => s' = s
     end.
Proof.
  unfold exec, completion. rewrite handleResize_run.
  destruct (sliderRef s) eqn:E; cbn; repeat split; reflexivity.
Qed.

(** X2.  The layout effect positions the slider like a resize does, but
    leaves the transition style as it finds it (no animation is switched
    on or off for the start index); it calls nothing and on a detached
    surface changes nothing. *)
Theorem layoutEffect_positions (measured : Dimensions) (s : Slider) :
  let s' := exec (layoutEffect measured) s in
  let x := toNumber (currentIndex s) * - width measured in
  completion (layoutEffect measured) s = Normal tt
  /\ calls s' = calls s
  /\ currentIndex s' = currentIndex s
  /\ match sliderRef s with
     | Some el =>
         queued s' = Some measured
         /\ dimensions s' = dimensions s
         /\ currentTranslate s' = x
         /\ prevTranslate s' = x
         /\ sliderRef s'
            = Some (mkStyle (style_transition el) (Some (TranslateX x))
                      (style_cursor el))
     | None => s' = s
     end.
Proof.
  unfold exec, completion. rewrite layoutEffect_run.
  destruct (sliderRef s) eqn:E; cbn; repeat split; reflexivity.
Qed.

(** ** The drag gesture *)

(** X3.  A pointer going down on pane [i] always completes, attached or
    not.  It makes [i] the current index without moving either translate,
    records the pointer's coordinate, opens the drag, queues one frame
    whose id it keeps in [animationRef], and calls [onSlideStart], when
    supplied, once and with [i]. *)
Theorem touchStart_opens_drag (p : SliderProps) (i : Z)
    (event : PointerEvent) (s : Slider) :
  let s' := exec (touchStart p i event) s in
  completion (touchStart p i event) s = Normal tt
  /\ dragging s' = true
  /\ currentIndex s' = Some i
  /\ startPos s' = getPositionX event
  /\ currentTranslate s' = currentTranslate s
  /\ prevTranslate s' = prevTranslate s
  /\ dimensions s' = dimensions s
  /\ animationRef s' = Some (nextFrame s)
  /\ frames s' = frames s ++ [nextFrame s]
  /\ calls s'
     = calls s ++ (if onSlideStart p then [SlideStart (Some i)] else []).
Proof.
  unfold exec, completion. rewrite touchStart_run. repeat split.
Qed.

(** X5.  Pointer moves do not accumulate: each one is measured from where
    the drag started, so after two moves the state is what the second move
    alone would have left. *)
Theorem touchMove_last_wins (e1 e2 : PointerEvent) (s : Slider) :
  exec (touchMove e2) (exec (touchMove e1) s) = exec (touchMove e2) s.
Proof.
  unfold exec. rewrite !touchMove_run. cbn [snd].
  destruct s as [dims queue [|] start cur prev idx el anim fs nf cs]; cbn;
    reflexivity.
Qed.


Lemma mouseLeave_run (p : SliderProps) (s : Slider) :
  mouseLeave p s = if dragging s then touchEnd p s else (Normal tt, s).
Proof.
  destruct s as [dims queue [|] start cur prev idx el anim fs nf cs]; reflexivity.
Qed.

(** X6.  A pointer leaving a pane while no drag is open changes nothing,
    calls nothing and completes; leaving during a drag releases it, so a
    second leave finds no drag open: two leaves in a row leave the state of
    one. *)
Theorem mouseLeave_once (p : SliderProps) (s : Slider) :
  (if dragging s
   then exec (mouseLeave p) s = exec (touchEnd p) s
   else exec (mouseLeave p) s = s
        /\ completion (mouseLeave p) s = Normal tt)
  /\ dragging (exec (mouseLeave p) s) = false
  /\ exec (mouseLeave p) (exec (mouseLeave p) s) = exec (mouseLeave p) s.
Proof.
  assert (D : dragging (exec (mouseLeave p) s) = false).
  { unfold exec. rewrite mouseLeave_run.
    destruct (dragging s) eqn:E; [| exact E].
    rewrite touchEnd_run. reflexivity. }
  split; [| split; [exact D |]].
  - unfold exec, completion. rewrite mouseLeave_run.
    destruct (dragging s); [reflexivity | split; reflexivity].
  - unfold exec at 1. rewrite mouseLeave_run, D. reflexivity.
Qed.

(** ** The render loop *)



Lemma runFrames_drain (n : nat) :
  forall s : Slider,
    dragging s = false ->
    List.length (frames s) = n ->
    let s' := runFrames n s in
    frames s' = []
    /\ nextFrame s' = nextFrame s
    /\ dragging s' = false
    /\ currentTranslate s' = currentTranslate s
    /\ prevTranslate s' = prevTranslate s
    /\ currentIndex s' = currentIndex s
    /\ calls s' = calls s.
Proof.
  induction n as [| n IH]; intros s Hd Hlen; cbn.
  - destruct (frames s) eqn:E; [repeat split; assumption | discriminate].
  - destruct (frames s) as [| f rest] eqn:E; [discriminate |].
    assert (R : exec runFrame s
                = mkSlider (dimensions s) (queued s) false (startPos s)
                    (currentTranslate s) (prevTranslate s) (currentIndex s)
                    (option_map
                       (fun el => mkStyle (style_transition el)
                                    (Some (TranslateX (currentTranslate s)))
                                    (style_cursor el))
                       (sliderRef s))
                    (animationRef s) rest (nextFrame s) (calls s)).
    { unfold exec. rewrite runFrame_run, E, Hd. reflexivity. }
    assert (Hd1 : dragging (exec runFrame s) = false)
      by (rewrite R; reflexivity).
    assert (Hl1 : List.length (frames (exec runFrame s)) = n)
      by (rewrite R; cbn in *; lia).
    destruct (IH _ Hd1 Hl1) as (A & B & C & D & F & G & H).
    rewrite A, B, C, D, F, G, H, R. repeat split.
Qed.

(** X7.  Once the drag is closed the render loop stops by itself: every
    pending frame that runs requests no other, so after as many frames as
    were pending the queue is empty, no new request id was handed out, and
    translates, index and host calls are what they were. *)
Theorem render_loop_drains (s : Slider) :
  dragging s = false ->
  let s' := runFrames (List.length (frames s)) s in
  frames s' = []
  /\ nextFrame s' = nextFrame s
  /\ dragging s' = false
  /\ currentTranslate s' = currentTranslate s
  /\ prevTranslate s' = prevTranslate s
  /\ currentIndex s' = currentIndex s
  /\ calls s' = calls s.
Proof. intros Hd. exact (runFrames_drain _ s Hd eq_refl). Qed.

Lemma render_loop_drains_witness :
  dragging (exec (touchEnd scenarioProps) nudged) = false
  /\ frames
       (runFrames
          (List.length (frames (exec (touchEnd scenarioProps) nudged)))
          (exec (touchEnd scenarioProps) nudged))
     = [].
Proof.
  assert (Hd : dragging (exec (touchEnd scenarioProps) nudged) = false)
    by (vm_compute; reflexivity).
  split; [exact Hd |].
  exact (proj1 (render_loop_drains _ Hd)).
Defined.

(** X9.  [touchEnd] cancels the request whose id is in [animationRef], and
    that is the first request of the drag only: the requests the loop makes
    for itself are not recorded.  So when a frame has already run during
    the drag, the request it made is still pending after the release. *)
Theorem touchEnd_keeps_rearmed_frame (p : SliderProps) (s : Slider) (h : nat) :
  dragging s = true ->
  frames s <> [] ->
  animationRef s = Some h ->
  (h < nextFrame s)%nat ->
  In (nextFrame s) (frames (exec (touchEnd p) (exec runFrame s))).
Proof.
  intros Hd Hf Ha Hlt. unfold exec. rewrite touchEnd_run, runFrame_run.
  destruct (frames s) as [| f rest]; [congruence |].
  cbn. rewrite Hd, Ha. apply filter_In. split.
  - apply in_or_app. right. left. reflexivity.
  - apply negb_true_iff, Nat.eqb_neq. lia.
Qed.

Lemma touchEnd_keeps_rearmed_frame_witness :
  dragging pulledLeft = true
  /\ frames pulledLeft <> []
  /\ animationRef pulledLeft = Some 1%nat
  /\ (1 < nextFrame pulledLeft)%nat
  /\ In (nextFrame pulledLeft)
       (frames (exec (touchEnd scenarioProps) (exec runFrame pulledLeft))).
Proof.
  assert (Hd : dragging pulledLeft = true) by reflexivity.
  assert (Hf : frames pulledLeft <> []) by (vm_compute; discriminate).
  assert (Ha : animationRef pulledLeft = Some 1%nat) by reflexivity.
  assert (Hlt : (1 < nextFrame pulledLeft)%nat) by (vm_compute; lia).
  split; [exact Hd | split; [exact Hf | split; [exact Ha |
    split; [exact Hlt |]]]].
  exact (touchEnd_keeps_rearmed_frame scenarioProps pulledLeft 1 Hd Hf Ha Hlt).
Defined.

(** X10.  A drag that is released before any frame ran leaves no request
    behind: from an empty queue, pointer down, any move and release end
    with an empty queue again. *)
Theorem quick_drag_cancels_its_frame (p : SliderProps) (i : Z)
    (down move : PointerEvent) (s : Slider) :
  frames s = [] ->
  frames (exec (touchEnd p)
            (exec (touchMove move) (exec (touchStart p i down) s)))
  = [].
Proof.
  intros Hf. unfold exec.
  rewrite touchEnd_run, touchMove_run, touchStart_run. cbn.
  rewrite Hf. cbn. rewrite Nat.eqb_refl. reflexivity.
Qed.

Lemma quick_drag_cancels_its_frame_witness :
  frames (resting 1 300) = []
  /\ frames (exec (touchEnd scenarioProps) pulledLeft) = [].
Proof.
  split; [reflexivity |].
  exact (quick_drag_cancels_its_frame scenarioProps 1 (MouseEvent 500)
           (MouseEvent 350) (resting 1 300) eq_refl).
Defined.

(** ** The activeIndex effect *)

Lemma strict_neq_refl (a : option Z) : strict_neq a a = false.
Proof. destruct a; cbn; [rewrite Z.eqb_refl |]; reflexivity. Qed.

(** X11.  The effect settles in one pass: after it ran, the internal index
    is the prop, so running it again with the same props changes nothing.
    It never calls the host and always completes. *)
Theorem activeIndexEffect_settles (p : SliderProps) (s : Slider) :
  let s' := exec (activeIndexEffect p) s in
  completion (activeIndexEffect p) s = Normal tt
  /\ currentIndex s' = activeIndex p
  /\ calls s' = calls s
  /\ exec (activeIndexEffect p) s' = s'.
Proof.
  assert (I : currentIndex (exec (activeIndexEffect p) s) = activeIndex p).
  { unfold exec. rewrite activeIndexEffect_run. cbn [snd].
    destruct (strict_neq (activeIndex p) (currentIndex s)) eqn:E;
      [reflexivity |].
    destruct (activeIndex p) as [x|], (currentIndex s) as [y|];
      cbn in E; try discriminate; try reflexivity.
    apply negb_false_iff, Z.eqb_eq in E. congruence. }
  split; [| split; [exact I | split]].
  - unfold completion. rewrite activeIndexEffect_run. reflexivity.
  - unfold exec. rewrite activeIndexEffect_run. cbn [snd].
    destruct (strict_neq (activeIndex p) (currentIndex s)); reflexivity.
  - unfold exec at 1. rewrite activeIndexEffect_run. cbn [snd].
    rewrite I, strict_neq_refl. reflexivity.
Qed.

(** ** The keyboard *)

Lemma handleKeyDown_index_step (p : SliderProps) (key : string) (s : Slider) :
  let s' := exec (handleKeyDown p key) s in
  let i := toNumber (currentIndex s) in
  let i' := toNumber (currentIndex s') in
  Z.abs (i' - i) <= 1
  /\ (0 <= i <= children_length p - 1 -> 0 <= i' <= children_length p - 1)
  /\ (includes ["ArrowRight"; "ArrowLeft"] key = false ->
      currentIndex s' = currentIndex s /\ calls s' = calls s).
Proof.
  cbv zeta. unfold exec. rewrite handleKeyDown_run. cbn.
  destruct (key =? "ArrowRight")%string, (key =? "ArrowLeft")%string; cbn;
    destruct (Z.ltb_spec (toNumber (currentIndex s)) (children_length p - 1));
    cbn;
    try destruct (Z.gtb_spec (toNumber (currentIndex s) + 1) 0);
    try destruct (Z.gtb_spec (toNumber (currentIndex s)) 0);
    cbn; repeat split; intros; try discriminate; try lia;
    rewrite ?app_nil_r; reflexivity.
Qed.

(** X12.  Whatever the key, one key press moves the index by at most one
    and keeps an index that designates a pane inside [0, N-1]; a key that
    is not an arrow leaves the index and the host alone. *)
Theorem handleKeyDown_bounded (p : SliderProps) (key : string) (s : Slider) :
  let s' := exec (handleKeyDown p key) s in
  let i := toNumber (currentIndex s) in
  let i' := toNumber (currentIndex s') in
  Z.abs (i' - i) <= 1
  /\ (0 <= i <= children_length p - 1 -> 0 <= i' <= children_length p - 1)
  /\ (includes ["ArrowRight"; "ArrowLeft"] key = false ->
      currentIndex s' = currentIndex s /\ calls s' = calls s).
Proof. exact (handleKeyDown_index_step p key s). Qed.

(** X13.  ArrowRight followed by ArrowLeft is a round trip from every pane
    but the last: the index and both translates are back where a slider
    committed on that pane has them. *)
Theorem arrow_right_then_left (p : SliderProps) (s : Slider) (i : Z) :
  currentIndex s = Some i ->
  0 <= i < children_length p - 1 ->
  let s' := exec (handleKeyDown p "ArrowLeft")
              (exec (handleKeyDown p "ArrowRight") s) in
  currentIndex s' = Some i
  /\ currentTranslate s' = i * - width (dimensions s)
  /\ prevTranslate s' = i * - width (dimensions s)
  /\ dimensions s' = dimensions s.
Proof.
  intros Hi Hr. cbv zeta. unfold exec. rewrite !handleKeyDown_run. cbn.
  rewrite Hi. cbn.
  destruct (Z.ltb_spec i (children_length p - 1)); [| lia]. cbn.
  destruct (Z.gtb_spec (i + 1) 0); [| lia]. cbn.
  replace (i + 1 - 1) with i by lia. repeat split.
Qed.

Lemma arrow_right_then_left_witness :
  currentIndex (resting 2 300) = Some 2
  /\ 0 <= 2 < children_length scenarioProps - 1
  /\ currentTranslate
       (exec (handleKeyDown scenarioProps "ArrowLeft")
          (exec (handleKeyDown scenarioProps "ArrowRight") (resting 2 300)))
     = 2 * - width (dimensions (resting 2 300)).
Proof.
  assert (Hr : 0 <= 2 < children_length scenarioProps - 1)
    by (unfold children_length; cbn; lia).
  split; [reflexivity | split; [exact Hr |]].
  exact (proj1 (proj2
    (arrow_right_then_left scenarioProps (resting 2 300) 2 eq_refl Hr))).
Defined.

(** X20.  On a slider at rest, with the surface showing the committed
    position, a key that is not an arrow changes nothing at all. *)
Theorem other_key_at_rest (p : SliderProps) (key : string) (s : Slider) :
  includes ["ArrowRight"; "ArrowLeft"] key = false ->
  dragging s = false ->
  committed s ->
  match sliderRef s with
  | Some el => style_transform el = Some (TranslateX (currentTranslate s))
  | None => True
  end ->
  exec (handleKeyDown p key) s = s.
Proof.
  intros Hk Hd Hc Hs. unfold exec. rewrite handleKeyDown_other_key by exact Hk.
  destruct (Hc Hd) as [Hcur Hprev].
  destruct s as [dims queue drag start cur prev idx [[tr tf cu]|] anim fs nf cs];
    cbn in *; subst; reflexivity.
Qed.

Lemma other_key_at_rest_witness :
  includes ["ArrowRight"; "ArrowLeft"] "Escape" = false
  /\ dragging (resting 2 300) = false
  /\ committed (resting 2 300)
  /\ exec (handleKeyDown scenarioProps "Escape") (resting 2 300)
     = resting 2 300.
Proof.
  assert (Hc : committed (resting 2 300)) by (intros _; split; reflexivity).
  split; [reflexivity | split; [reflexivity | split; [exact Hc |]]].
  exact (other_key_at_rest scenarioProps "Escape" (resting 2 300)
           eq_refl eq_refl Hc eq_refl).
Defined.

(** ** What holds across all handlers *)

Lemma release_index_in_range (n threshold movedBy : Z) (index : option Z) :
  0 <= toNumber index <= n - 1 ->
  0 <= toNumber (release_index n threshold movedBy index) <= n - 1.
Proof.
  intros H. unfold release_index.
  destruct ((movedBy <? - threshold) && (toNumber index <? n - 1)) eqn:E1;
    cbn.
  - apply andb_prop in E1. destruct E1 as [_ E1]. apply Z.ltb_lt in E1.
    destruct ((movedBy >? threshold) && (toNumber index + 1 >? 0)); cbn; lia.
  - destruct ((movedBy >? threshold) && (toNumber index >? 0)) eqn:E2;
      cbn; [| lia].
    apply andb_prop in E2. destruct E2 as [_ E2].
    apply Z.gtb_lt in E2. lia.
Qed.

Lemma release_index_number (n threshold movedBy i : Z) :
  release_index n threshold movedBy (Some i)
  = Some (toNumber (release_index n threshold movedBy (Some i))).
Proof.
  unfold release_index. cbn.
  destruct ((movedBy <? - threshold) && (i <? n - 1)); cbn;
    match goal with
    | |- context [if ?b then _ else _] => destruct b
    end; reflexivity.
Qed.

Lemma release_index_on_pane (n threshold movedBy i : Z) :
  0 <= i <= n - 1 ->
  exists j, release_index n threshold movedBy (Some i) = Some j
            /\ 0 <= j <= n - 1.
Proof.
  intros Hr.
  exists (toNumber (release_index n threshold movedBy (Some i))). split.
  - apply release_index_number.
  - now apply release_index_in_range.
Qed.

Lemma rerender_run (p : SliderProps) (measured : Dimensions) (s : Slider) :
  rerender p measured s
  = (Normal tt,
     match queued s with
     | None => s
     | Some d =>
         let s1 := set_queued None (set_dimensions d s) in
         if negb (width d =? width (dimensions s))
         then exec (activeIndexEffect p) (exec (layoutEffect measured) s1)
         else s1
     end).
Proof.
  surface s; destruct queue; unfold_handlers; cbn; branches; reflexivity.
Qed.

Lemma dispatch_index_on_pane (p : SliderProps) (e : Event) (s : Slider) :
  index_on_pane p s ->
  admissible p e ->
  index_on_pane p (exec (dispatch p e) s).
Proof.
  unfold index_on_pane. intros (i & Hi & Hr) Ha.
  destruct e; cbn [dispatch admissible] in *; unfold exec.
  - rewrite activeIndexEffect_run. cbn [snd].
    destruct (strict_neq (activeIndex p) (currentIndex s));
      [exact Ha | exists i; auto].
  - rewrite layoutEffect_run. cbn [snd].
    destruct (sliderRef s); exists i; auto.
  - rewrite handleResize_run. cbn [snd].
    destruct (sliderRef s); exists i; auto.
  - rewrite handleKeyDown_run. cbn. rewrite Hi. cbn.
    destruct ((key =? "ArrowRight")%string && (i <? children_length p - 1))
      eqn:E1; cbn.
    + apply andb_prop in E1. destruct E1 as [_ E1]. apply Z.ltb_lt in E1.
      destruct ((key =? "ArrowLeft")%string && (i + 1 >? 0));
        eexists; split; try reflexivity; lia.
    + destruct ((key =? "ArrowLeft")%string && (i >? 0)) eqn:E2;
        eexists; split; try reflexivity; try lia.
  - rewrite touchStart_run. cbn. eexists; split; [reflexivity | exact Ha].
  - rewrite touchMove_run. cbn [snd]. destruct (dragging s); exists i; auto.
  - fold (exec (touchEnd p) s). rewrite touchEnd_index, Hi.
    now apply release_index_on_pane.
  - rewrite mouseLeave_run. destruct (dragging s); [| exists i; auto].
    fold (exec (touchEnd p) s). rewrite touchEnd_index, Hi.
    now apply release_index_on_pane.
  - rewrite runFrame_run. cbn [snd]. destruct (frames s); exists i; auto.
  - rewrite rerender_run. cbn [snd].
    destruct (queued s) as [d|]; [| exists i; auto]. cbv zeta.
    destruct (negb (width d =? width (dimensions s))); [| exists i; auto].
    unfold exec. rewrite activeIndexEffect_run, layoutEffect_run. cbn [snd].
    match goal with
    | |- context [if ?b then _ else _] => destruct b
    end; [exact Ha |].
    cbn. destruct (sliderRef s); exists i; auto.
Qed.

(** X14.  The index never leaves the panes.  If it is a number that
    designates a pane, then after any handler, and after any render, it
    still is one, whatever the threshold and the key, provided the
    environment plays its part: the pointer went down on a rendered pane,
    and the host's [activeIndex] is a number that designates a pane
    whenever the activeIndex effect runs. *)
Theorem index_stays_in_range (p : SliderProps) (e : Event) (s : Slider) :
  index_on_pane p s ->
  admissible p e ->
  index_on_pane p (exec (dispatch p e) s).
Proof. exact (dispatch_index_on_pane p e s). Qed.

Lemma index_stays_in_range_witness :
  index_on_pane scenarioProps pulledLeft
  /\ admissible scenarioProps PointerUp
  /\ index_on_pane scenarioProps
       (exec (dispatch scenarioProps PointerUp) pulledLeft).
Proof.
  assert (Hr : index_on_pane scenarioProps pulledLeft).
  { exists 1. split; [reflexivity |]. unfold children_length. cbn. lia. }
  split; [exact Hr | split; [exact I |]].
  exact (index_stays_in_range scenarioProps PointerUp pulledLeft Hr I).
Defined.

(** X15.  The host is called by gestures only: the activeIndex effect, the
    layout effect, a resize, a pointer move, an animation frame and a
    render with the effects it re-runs always complete and never call
    [onSlideStart] or [onSlideComplete]. *)
Theorem only_gestures_call_host (p : SliderProps) (e : Event) (s : Slider) :
  is_gesture e = false ->
  completion (dispatch p e) s = Normal tt
  /\ calls (exec (dispatch p e) s) = calls s.
Proof.
  intros He. unfold exec, completion.
  destruct e; try discriminate He; cbn [dispatch].
  - rewrite activeIndexEffect_run. cbn.
    destruct (strict_neq (activeIndex p) (currentIndex s)); split; reflexivity.
  - rewrite layoutEffect_run. cbn. destruct (sliderRef s); split; reflexivity.
  - rewrite handleResize_run. cbn. destruct (sliderRef s); split; reflexivity.
  - rewrite touchMove_run. cbn. destruct (dragging s); split; reflexivity.
  - rewrite runFrame_run. cbn. destruct (frames s); split; reflexivity.
  - rewrite rerender_run. cbn [fst snd]. split; [reflexivity |].
    destruct (queued s) as [d|]; [| reflexivity]. cbv zeta.
    destruct (negb (width d =? width (dimensions s))); [| reflexivity].
    unfold exec. rewrite activeIndexEffect_run, layoutEffect_run. cbn [snd].
    match goal with
    | |- context [if ?b then _ else _] => destruct b
    end; cbn; destruct (sliderRef s); reflexivity.
Qed.

Lemma only_gestures_call_host_witness :
  is_gesture (Resize (mkDimensions 640 480)) = false
  /\ calls (exec (dispatch scenarioProps (Resize (mkDimensions 640 480)))
              pulledLeft)
     = calls pulledLeft.
Proof.
  split; [reflexivity |].
  exact (proj2 (only_gestures_call_host scenarioProps
                  (Resize (mkDimensions 640 480)) pulledLeft eq_refl)).
Defined.

(** X16.  Measured dimensions are handed to [setDimensions] by the layout
    effect and by a resize and by nothing else, and no handler changes the
    dimensions the current render sees: those change only when React
    renders again. *)
Theorem dimensions_only_measured (p : SliderProps) (e : Event) (s : Slider) :
  match e with
  | Rendered _ => True
  | Layout _ | Resize _ => dimensions (exec (dispatch p e) s) = dimensions s
  | _ =>
      dimensions (exec (dispatch p e) s) = dimensions s
      /\ queued (exec (dispatch p e) s) = queued s
  end.
Proof.
  unfold exec. destruct e; cbn [dispatch]; try exact I.
  - rewrite activeIndexEffect_run. cbn.
    destruct (strict_neq (activeIndex p) (currentIndex s)); split; reflexivity.
  - rewrite layoutEffect_run. cbn. destruct (sliderRef s); reflexivity.
  - rewrite handleResize_run. cbn. destruct (sliderRef s); reflexivity.
  - rewrite handleKeyDown_run. split; reflexivity.
  - rewrite touchStart_run. split; reflexivity.
  - rewrite touchMove_run. cbn. destruct (dragging s); split; reflexivity.
  - rewrite touchEnd_run. split; reflexivity.
  - rewrite mouseLeave_run. destruct (dragging s); [| split; reflexivity].
    rewrite touchEnd_run. split; reflexivity.
  - rewrite runFrame_run. cbn. destruct (frames s); split; reflexivity.
Qed.

(** X18.  A detached surface is tolerated by every handler but the
    release: the effects, resize, key presses, pointer down and move, a
    pointer leaving with no drag open and animation frames all complete,
    and none of them attaches or styles a surface. *)
Theorem detached_surface_tolerated (p : SliderProps) (e : Event) (s : Slider) :
  sliderRef s = None ->
  e <> PointerUp ->
  (e = PointerLeave -> dragging s = false) ->
  completion (dispatch p e) s = Normal tt
  /\ sliderRef (exec (dispatch p e) s) = None.
Proof. exact (detached_handlers_complete p e s). Qed.

Lemma detached_surface_tolerated_witness :
  sliderRef initial = None
  /\ KeyDown "ArrowRight" <> PointerUp
  /\ completion (dispatch scenarioProps (KeyDown "ArrowRight")) initial
     = Normal tt.
Proof.
  assert (Hne : KeyDown "ArrowRight" <> PointerUp) by discriminate.
  split; [reflexivity | split; [exact Hne |]].
  refine (proj1 (detached_surface_tolerated scenarioProps
                   (KeyDown "ArrowRight") initial eq_refl Hne _)).
  intros H. discriminate H.
Defined.

(** X19.  The host's index is taken as it comes.  An [activeIndex] [k]
    that differs from the internal index becomes the internal index and
    the position is set to [k * -width] without a call to the host, and
    without a look at the number of panes: a [k] past the last pane puts
    the index out of range. *)
Theorem activeIndex_not_clamped (p : SliderProps) (s : Slider) (k : Z) :
  activeIndex p = Some k ->
  currentIndex s <> Some k ->
  let s' := exec (activeIndexEffect p) s in
  currentIndex s' = Some k
  /\ currentTranslate s' = k * - width (dimensions s)
  /\ prevTranslate s' = k * - width (dimensions s)
  /\ calls s' = calls s
  /\ (children_length p - 1 < k -> ~ index_in_range p s').
Proof.
  intros Hk Hne.
  destruct (activeIndexEffect_overrides p s k Hk Hne) as (_ & A & B & C & D).
  cbv zeta. repeat split; try assumption.
  intros Hlt Hr. unfold index_in_range in Hr. rewrite A in Hr. cbn in Hr. lia.
Qed.

Lemma activeIndex_not_clamped_witness :
  activeIndex (App.props five 7) = Some 7
  /\ currentIndex (resting 2 300) <> Some 7
  /\ currentIndex
       (exec (activeIndexEffect (App.props five 7)) (resting 2 300))
     = Some 7.
Proof.
  assert (Hne : currentIndex (resting 2 300) <> Some 7) by discriminate.
  split; [reflexivity | split; [exact Hne |]].
  exact (proj1 (activeIndex_not_clamped (App.props five 7) (resting 2 300) 7
                  eq_refl Hne)).
Defined.

(** X21.  A release with no drag open, on a committed position and with a
    threshold that is not negative, moves nothing: index, translates and
    dragging flag are what they were.  What it still does is call
    [onSlideComplete], when supplied and the surface is attached, with the
    index the slider is already on. *)
Theorem touchEnd_at_rest (p : SliderProps) (s : Slider) :
  0 <= threshHold p ->
  dragging s = false ->
  committed s ->
  let s' := exec (touchEnd p) s in
  currentIndex s' = currentIndex s
  /\ currentTranslate s' = currentTranslate s
  /\ prevTranslate s' = prevTranslate s
  /\ dragging s' = false
  /\ calls s'
     = calls s ++
       match sliderRef s with
       | Some _ =>
           if onSlideComplete p then [SlideComplete (currentIndex s)] else []
       | None => []
       end.
Proof.
  intros Ht Hd Hc.
  destruct (touchEnd_without_drag_refs p s Ht Hd Hc) as (A & B & C & D).
  cbv zeta. repeat split; try assumption.
  rewrite touchEnd_calls, A. reflexivity.
Qed.

Lemma touchEnd_at_rest_witness :
  0 <= threshHold scenarioProps
  /\ dragging (resting 2 300) = false
  /\ committed (resting 2 300)
  /\ currentIndex (exec (touchEnd scenarioProps) (resting 2 300))
     = currentIndex (resting 2 300).
Proof.
  assert (Ht : 0 <= threshHold scenarioProps) by (cbn; lia).
  assert (Hc : committed (resting 2 300)) by (intros _; split; reflexivity).
  split; [exact Ht | split; [reflexivity | split; [exact Hc |]]].
  exact (proj1 (touchEnd_at_rest scenarioProps (resting 2 300) Ht eq_refl Hc)).
Defined.

(** ** The example host *)

(** X22.  The host's two buttons keep its index on a pane, and away from
    the ends each undoes the other. *)
Theorem app_buttons_bounded (images_length i : Z) :
  0 <= i <= images_length - 1 ->
  0 <= App.increment images_length i <= images_length - 1
  /\ 0 <= App.decrement i <= images_length - 1
  /\ (i < images_length - 1 ->
      App.decrement (App.increment images_length i) = i)
  /\ (0 < i -> App.increment images_length (App.decrement i) = i).
Proof.
  intros Hr. unfold App.increment, App.decrement.
  destruct (Z.ltb_spec i (images_length - 1));
    destruct (Z.gtb_spec i 0); repeat split; intros; try lia.
  - destruct (Z.gtb_spec (i + 1) 0); lia.
  - destruct (Z.ltb_spec (i - 1) (images_length - 1)); lia.
  - destruct (Z.gtb_spec (i + 1) 0); lia.
  - destruct (Z.ltb_spec (i - 1) (images_length - 1)); lia.
Qed.

Lemma app_buttons_bounded_witness :
  0 <= 1 <= 5 - 1 /\ App.decrement (App.increment 5 1) = 1.
Proof.
  assert (Hr : 0 <= 1 <= 5 - 1) by lia.
  split; [exact Hr |].
  refine (proj1 (proj2 (proj2 (app_buttons_bounded 5 1 Hr))) _). lia.
Defined.

(** X23.  The controlled loop closes.  With the example host's props, a
    release on an attached surface reports the index it settled on, once;
    when the host stores that index and renders the slider with it as
    [activeIndex], the effect finds nothing to do: the echo changes no ref
    and starts no animation. *)
Theorem host_echo_is_silent (images : list string) (index i : Z)
    (s : Slider) :
  currentIndex s = Some i ->
  sliderRef s <> None ->
  let s' := exec (touchEnd (App.props images index)) s in
  let j := toNumber (currentIndex s') in
  calls s' = calls s ++ [SlideComplete (Some j)]
  /\ activeIndexEffect (App.props images j) s' = (Normal tt, s').
Proof.
  intros Hi Hs. cbv zeta.
  assert (J : currentIndex (exec (touchEnd (App.props images index)) s)
              = Some (toNumber
                        (currentIndex
                           (exec (touchEnd (App.props images index)) s)))).
  { rewrite touchEnd_index, Hi. apply release_index_number. }
  split.
  - rewrite touchEnd_calls, <- J.
    destruct (sliderRef s); [reflexivity | congruence].
  - rewrite activeIndexEffect_run. cbn [activeIndex App.props].
    rewrite <- J, strict_neq_refl. reflexivity.
Qed.

Lemma host_echo_is_silent_witness :
  currentIndex pulledLeft = Some 1
  /\ sliderRef pulledLeft <> None
  /\ calls (exec (touchEnd (App.props five 1)) pulledLeft)
     = calls pulledLeft
       ++ [SlideComplete
             (Some (toNumber
                      (currentIndex
                         (exec (touchEnd (App.props five 1)) pulledLeft))))].
Proof.
  assert (Hs : sliderRef pulledLeft <> None) by (vm_compute; discriminate).
  split; [reflexivity | split; [exact Hs |]].
  exact (proj1 (host_echo_is_silent five 1 1 pulledLeft eq_refl Hs)).
Defined.

(** X24.  A host button drives the slider without a callback.  When the
    host, in step with the slider on pane [i], increments its index and
    renders, the effect puts the slider on the host's new index and calls
    nothing; away from the last pane that is pane [i + 1], positioned at
    [(i + 1) * -width]; on the last pane nothing moves. *)
Theorem app_increment_drives_slider (images : list string) (i : Z)
    (s : Slider) :
  currentIndex s = Some i ->
  let n := Z.of_nat (List.length images) in
  let i' := App.increment n i in
  let s' := exec (activeIndexEffect (App.props images i')) s in
  currentIndex s' = Some i'
  /\ calls s' = calls s
  /\ (i < n - 1 ->
      i' = i + 1
      /\ currentTranslate s' = (i + 1) * - width (dimensions s)
      /\ prevTranslate s' = (i + 1) * - width (dimensions s))
  /\ (n - 1 <= i -> s' = s).
Proof.
  intros Hi. cbv zeta. unfold exec, App.increment.
  rewrite activeIndexEffect_run. cbn [snd activeIndex App.props]. rewrite Hi.
  destruct (Z.ltb_spec i (Z.of_nat (List.length images) - 1)); cbn.
  - assert (E : (i + 1 =? i) = false) by (apply Z.eqb_neq; lia).
    rewrite E. cbn. repeat split; lia.
  - rewrite Z.eqb_refl. cbn. repeat split; try assumption; try lia.
Qed.

Lemma app_increment_drives_slider_witness :
  currentIndex (resting 1 300) = Some 1
  /\ currentIndex
       (exec (activeIndexEffect
                (App.props five
                   (App.increment (Z.of_nat (List.length five)) 1)))
          (resting 1 300))
     = Some (App.increment (Z.of_nat (List.length five)) 1).
Proof.
  split; [reflexivity |].
  exact (proj1 (app_increment_drives_slider five 1 (resting 1 300) eq_refl)).
Defined.


(** ** The committed position across handlers and renders *)

Lemma positioned_initial : positioned initial /\ positioned mounted.
Proof.
  split; (split; [intros H; exfalso; apply H; reflexivity |]);
    intros _; left; split; reflexivity.
Qed.

(** A measurement on an attached surface positions the slider, whatever
    the position was. *)
Lemma layoutEffect_positions_attached (measured : Dimensions) (s : Slider) :
  sliderRef s <> None ->
  positioned (exec (layoutEffect measured) s).
Proof.
  intros Hs. unfold exec. rewrite layoutEffect_run. cbn [snd].
  destruct (sliderRef s) as [el|]; [| congruence].
  split; cbn.
  - intros _. discriminate.
  - intros _. right. exists measured. split; [reflexivity |].
    split; reflexivity.
Qed.

Lemma activeIndexEffect_positioned (p : SliderProps) (s : Slider) :
  positioned s -> positioned (exec (activeIndexEffect p) s).
Proof.
  intros [Haux Hpos]. unfold exec. rewrite activeIndexEffect_run. cbn [snd].
  destruct (strict_neq (activeIndex p) (currentIndex s));
    [| split; assumption].
  split; cbn.
  - intros Hq. specialize (Haux Hq).
    destruct (sliderRef s); [discriminate | congruence].
  - intros _. left. split; reflexivity.
Qed.

Lemma touchEnd_positioned (p : SliderProps) (s : Slider) :
  positioned s -> positioned (exec (touchEnd p) s).
Proof.
  intros [Haux Hpos]. unfold exec. rewrite touchEnd_run. split; cbn.
  - intros Hq. specialize (Haux Hq).
    destruct (sliderRef s); [discriminate | congruence].
  - intros _. left. split; reflexivity.
Qed.

Lemma dispatch_positioned (p : SliderProps) (e : Event) (s : Slider) :
  positioned s -> positioned (exec (dispatch p e) s).
Proof.
  intros H. destruct e; cbn [dispatch].
  - now apply activeIndexEffect_positioned.
  - destruct (sliderRef s) eqn:E.
    + apply layoutEffect_positions_attached. congruence.
    + unfold exec. rewrite layoutEffect_run, E. exact H.
  - unfold exec. rewrite handleResize_run.
    cbn [snd]. destruct (sliderRef s) eqn:E; [| exact H].
    split; cbn.
    + intros _. discriminate.
    + intros _. right. exists measured. split; [reflexivity |].
      split; reflexivity.
  - destruct H as [Haux Hpos]. unfold exec. rewrite handleKeyDown_run.
    split; cbn.
    + intros Hq. specialize (Haux Hq).
      destruct (sliderRef s); [discriminate | congruence].
    + intros _. left. split; reflexivity.
  - destruct H as [Haux Hpos]. unfold exec. rewrite touchStart_run.
    split; cbn.
    + intros Hq. specialize (Haux Hq).
      destruct (sliderRef s); [discriminate | congruence].
    + intros Hd. discriminate Hd.
  - unfold exec. rewrite touchMove_run.
    cbn [snd]. destruct (dragging s) eqn:Hd; [| exact H].
    destruct H as [Haux Hpos]. split; cbn.
    + exact Haux.
    + intros Hd'. congruence.
  - now apply touchEnd_positioned.
  - unfold exec. rewrite mouseLeave_run.
    destruct (dragging s); [| exact H].
    now apply touchEnd_positioned.
  - unfold exec. rewrite runFrame_run.
    cbn [snd]. destruct (frames s); [exact H |].
    destruct H as [Haux Hpos]. split; cbn.
    + intros Hq. specialize (Haux Hq).
      destruct (sliderRef s); [discriminate | congruence].
    + exact Hpos.
  - unfold exec. rewrite rerender_run. cbn [snd].
    destruct (queued s) as [d|] eqn:Q; [| exact H]. cbv zeta.
    destruct H as [Haux Hpos].
    assert (Hs : sliderRef s <> None) by (apply Haux; rewrite Q; discriminate).
    destruct (negb (width d =? width (dimensions s))) eqn:W.
    + apply activeIndexEffect_positioned, layoutEffect_positions_attached.
      exact Hs.
    + apply negb_false_iff, Z.eqb_eq in W.
      split; cbn.
      * intros Hq. congruence.
      * intros Hd. destruct (Hpos Hd) as [Hw | (d' & Hq & Hw)].
        -- left. rewrite W. exact Hw.
        -- left. assert (d' = d) by congruence. subst d'. exact Hw.
Qed.

Lemma run_positioned (history : list (SliderProps * Event)) (s : Slider) :
  positioned s -> positioned (run history s).
Proof.
  revert s. induction history as [| [p e] rest IH]; intros s H; cbn.
  - exact H.
  - apply IH, dispatch_positioned, H.
Qed.

Lemma positioned_rendered (s : Slider) :
  positioned s -> queued s = None -> committed s /\ committed_to_measured s.
Proof.
  intros [_ Hpos] Hq. unfold committed, committed_to_measured, lastMeasured.
  rewrite Hq. split; intros Hd;
    (destruct (Hpos Hd) as [Hw | (d & Hq' & _)]; [exact Hw | congruence]).
Qed.

(** C7, with the width each handler positions with.  Every handler, and
    every render with the effects it re-runs, keeps this: whenever no drag
    is open, [currentTranslate = prevTranslate = index * -w] exactly, for
    the current index and a width [w] that is the [dimensions.width] of the
    current render or the measured width queued for the next one.  So
    whenever no measurement awaits its render, [w] is the last measured
    width and the two translates are [index * -width] for it. *)
Theorem positioned_invariant (p : SliderProps) (e : Event) (s : Slider) :
  positioned s ->
  let s' := exec (dispatch p e) s in
  positioned s'
  /\ (queued s' = None -> committed_to_measured s').
Proof.
  intros H. cbv zeta.
  pose proof (dispatch_positioned p e s H) as H'.
  split; [exact H' |].
  intros Hq. exact (proj2 (positioned_rendered _ H' Hq)).
Qed.

Lemma positioned_invariant_witness :
  positioned (resting 2 300)
  /\ positioned
       (exec (dispatch scenarioProps (KeyDown "ArrowLeft")) (resting 2 300)).
Proof.
  assert (H : positioned (resting 2 300)).
  { split; [intros Hq; exfalso; apply Hq; reflexivity |].
    intros _. left. split; reflexivity. }
  split; [exact H |].
  exact (proj1 (positioned_invariant scenarioProps (KeyDown "ArrowLeft")
                  (resting 2 300) H)).
Defined.

(** C7 as stated, against the last measured width, fails on mount.  The
    host renders the slider with [activeIndex] 1; the layout effect
    measures 300 pixels and queues them; the activeIndex effect of the same
    commit still sees the width 0 its render captured, moves the index to
    1 and sets both translates to [1 * -0].  No drag is open, the last
    measured width is 300, and the translate is 0, not -300. *)
Lemma committed_to_measured_broken_on_mount :
  let p := App.props five 1 in
  let s0 := exec (dispatch p (Layout (mkDimensions 300 200))) mounted in
  let s1 := exec (dispatch p ActiveIndexObserved) s0 in
  committed_to_measured mounted
  /\ committed_to_measured s0
  /\ dragging s1 = false
  /\ currentIndex s1 = Some 1
  /\ width (lastMeasured s1) = 300
  /\ currentTranslate s1 = 0
  /\ ~ committed_to_measured s1.
Proof.
  cbv zeta. repeat split; try (intros _; split; reflexivity).
  intros H. destruct (H eq_refl) as [Hc _]. vm_compute in Hc. discriminate Hc.
Qed.

(** The render that follows takes the measured width up and the layout
    effect it re-runs puts the slider on pane 1 at -300. *)
Example mount_settles :
  let p := App.props five 1 in
  let s := run [(p, Layout (mkDimensions 300 200));
                (p, ActiveIndexObserved);
                (p, Rendered (mkDimensions 300 200));
                (p, Rendered (mkDimensions 300 200))] mounted in
  currentIndex s = Some 1
  /\ currentTranslate s = -300
  /\ prevTranslate s = -300
  /\ dimensions s = mkDimensions 300 200
  /\ queued s = None.
Proof. vm_compute. repeat split. Qed.

(** ** Histories *)

(** X25.  No drift over a lifetime: after any sequence of handlers and
    renders, each with any props and whether or not a release raised on
    the way, a slider that started from its mounted or initial state has,
    whenever no drag is open, both translates at [index * -w] for [w] the
    width of the current render or the measured width queued for the next
    one; and at [index * -dimensions.width] whenever no measurement awaits
    its render. *)
Theorem reachable_committed (history : list (SliderProps * Event)) :
  (positioned (run history mounted)
   /\ (queued (run history mounted) = None -> committed (run history mounted)))
  /\ (positioned (run history initial)
      /\ (queued (run history initial) = None ->
          committed (run history initial))).
Proof.
  assert (Hm : positioned (run history mounted))
    by (apply run_positioned, positioned_initial).
  assert (Hi : positioned (run history initial))
    by (apply run_positioned, positioned_initial).
  split; (split; [assumption |]); intros Hq.
  - exact (proj1 (positioned_rendered _ Hm Hq)).
  - exact (proj1 (positioned_rendered _ Hi Hq)).
Qed.

(** ** The surface *)



